(** * Talos Guardian Python SDK: a model of [sdk/python/talos/client.py]

    The client is a thin wrapper over [requests]: every method calls the
    session once, with a URL made from the client's configuration, calls
    [raise_for_status] on the response it gets and maps the decoded JSON
    body into a dataclass or returns it as it is.

    Python values are modelled by [pyval]; a method is a computation in a
    state-and-exception monad [M] whose state holds the client object and
    a chronological trace of the calls made on the session and on the
    response object.  The model stops at the call to the session: what
    [requests] does between that call and its return (preparing the
    request, authentication from the URL or a netrc file, redirects,
    cookies) is inside the section variable [server], which gives what the
    call returns or raises; the headers a fresh [requests.Session] starts
    with are a section variable too. *)

From Stdlib Require Import ZArith String Ascii Lia.
From Stdlib Require Import Floats.PrimFloat.
From stdpp Require Import base option list gmap strings.

Set Warnings "-register-all,-clear-no-such-hyp".
Open Scope Z_scope.

(** ** Python values *)

(** What [json.loads] can produce.  A dict is a finite map: two dicts are
    equal when they hold the same items, whatever the order of insertion. *)
Inductive pyval : Type :=
| PyNone
| PyBool (b : bool)
| PyInt (z : Z)
| PyFloat (f : float)
| PyStr (s : string)
| PyList (l : list pyval)
| PyDict (d : gmap string pyval).

(** ** Dataclasses

    A dataclass stores whatever it is given: the annotations ([int], [str],
    [float], ...) are not checked at run time, so every field is a [pyval];
    the two list-valued results are Python lists of dataclass instances. *)

Record TierStatus : Type := mkTierStatus {
  tier : pyval;
  name : pyval;
  model : pyval;
  active : pyval;
  requests_today : pyval;
  avg_latency_ms : pyval;
  success_rate : pyval;
  status : pyval
}.

Record SwarmStatus : Type := mkSwarmStatus {
  active_tier : pyval;
  tier_status : list TierStatus;
  current_action : pyval;
  queue_depth : pyval
}.

Record Resource : Type := mkResource {
  id : pyval;
  type : pyval;
  provider : pyval;
  region : pyval;
  cost_per_month : pyval;
  optimization_score : pyval;
  tags : pyval
}.

Record ROI : Type := mkROI {
  ratio : pyval;
  total_savings : pyval;
  total_cost : pyval;
  net_profit : pyval
}.

Definition TierStatus_fields : list string :=
  ["tier"; "name"; "model"; "active"; "requests_today"; "avg_latency_ms";
   "success_rate"; "status"]%string.

Definition Resource_fields : list string :=
  ["id"; "type"; "provider"; "region"; "cost_per_month";
   "optimization_score"; "tags"]%string.

Definition ROI_fields : list string :=
  ["ratio"; "total_savings"; "total_cost"; "net_profit"]%string.

(** ** HTTP messages and exceptions *)

(** One call of [Session.request]: its arguments, and the headers the
    session holds when it is called. *)
Record Request : Type := mkRequest {
  req_method : string;
  req_url : string;
  req_params : gmap string string;
  req_json : option pyval;
  req_headers : gmap string string
}.

(** A [requests.Response]: [decoded] is what [json.loads] makes of [text],
    [None] when [text] is not JSON. *)
Record Response : Type := mkResponse {
  status_code : Z;
  text : string;
  decoded : option pyval
}.

Inductive TypeErrorReason : Type :=
| not_a_mapping            (* argument after ** must be a mapping *)
| unexpected_keyword       (* __init__() got an unexpected keyword argument *)
| missing_argument (field : string)  (* __init__() missing required argument *)
| not_subscriptable        (* obj[key] on a list, str, number, bool or None *)
| not_iterable.            (* iteration over a number, bool or None *)

Inductive exn : Type :=
| TransportError (msg : string)     (* raised by the session call: no response *)
| HTTPError (response : Response)   (* raised by raise_for_status *)
| JSONDecodeError (doc : string)    (* raised by response.json() *)
| KeyError (key : string)
| TypeError (why : TypeErrorReason).

(** The three kinds of failure of the error taxonomy. *)
Inductive failure_kind : Type := transport_failure | status_failure | decode_failure.

Definition kind_of (e : exn) : failure_kind :=
  match e with
  | TransportError _ => transport_failure
  | HTTPError _ => status_failure
  | JSONDecodeError _ | KeyError _ | TypeError _ => decode_failure
  end.

(** ** Results and the exception monad of pure Python expressions *)

Inductive result (A : Type) : Type :=
| Ok (a : A)
| Err (e : exn).
Arguments Ok {A} a.
Arguments Err {A} e.

#[global] Instance result_ret : MRet result := λ A a, Ok a.
#[global] Instance result_bind : MBind result := λ A B f r,
  match r with
  | Ok a => f a
  | Err e => Err e
  end.

#[global] Instance result_fmap : FMap result := λ A B f r,
  match r with
  | Ok a => Ok (f a)
  | Err e => Err e
  end.

(** [obj[key]] with a string key. *)
Definition getitem (obj : pyval) (key : string) : result pyval :=
  match obj with
  | PyDict d =>
      match d !! key with
      | Some v => Ok v
      | None => Err (KeyError key)
      end
  | _ => Err (TypeError not_subscriptable)
  end.

Fixpoint chars (s : string) : list pyval :=
  match s with
  | EmptyString => []
  | String a s' => PyStr (String a EmptyString) :: chars s'
  end.

(** [for x in obj]: the elements of a list, the keys of a dict, the
    characters of a string.  The keys come in the order of the finite map,
    not in Python's insertion order: the methods hand each of them to a
    dataclass constructor, which refuses a string whatever it is. *)
Definition iterate (obj : pyval) : result (list pyval) :=
  match obj with
  | PyList l => Ok l
  | PyDict d => Ok (PyStr <$> (map_to_list d).*1)
  | PyStr s => Ok (chars s)
  | _ => Err (TypeError not_iterable)
  end.

(** [**obj] in a call. *)
Definition kwargs (obj : pyval) : result (gmap string pyval) :=
  match obj with
  | PyDict d => Ok d
  | _ => Err (TypeError not_a_mapping)
  end.

(** The generated [__init__] of a dataclass whose fields have no default:
    a keyword that is not a field is refused, then every field is required. *)
Definition check_keywords (fields : list string) (kw : gmap string pyval) : result unit :=
  if bool_decide (dom kw ⊆ (list_to_set fields : gset string))
  then Ok tt
  else Err (TypeError unexpected_keyword).

Definition required (kw : gmap string pyval) (field : string) : result pyval :=
  match kw !! field with
  | Some v => Ok v
  | None => Err (TypeError (missing_argument field))
  end.

Definition TierStatus_init (kw : gmap string pyval) : result TierStatus :=
  check_keywords TierStatus_fields kw;;
  tier ← required kw "tier";
  name ← required kw "name";
  model ← required kw "model";
  active ← required kw "active";
  requests_today ← required kw "requests_today";
  avg_latency_ms ← required kw "avg_latency_ms";
  success_rate ← required kw "success_rate";
  status ← required kw "status";
  mret (mkTierStatus tier name model active requests_today avg_latency_ms
          success_rate status).

Definition Resource_init (kw : gmap string pyval) : result Resource :=
  check_keywords Resource_fields kw;;
  id ← required kw "id";
  type ← required kw "type";
  provider ← required kw "provider";
  region ← required kw "region";
  cost_per_month ← required kw "cost_per_month";
  optimization_score ← required kw "optimization_score";
  tags ← required kw "tags";
  mret (mkResource id type provider region cost_per_month optimization_score tags).

Definition ROI_init (kw : gmap string pyval) : result ROI :=
  check_keywords ROI_fields kw;;
  ratio ← required kw "ratio";
  total_savings ← required kw "total_savings";
  total_cost ← required kw "total_cost";
  net_profit ← required kw "net_profit";
  mret (mkROI ratio total_savings total_cost net_profit).

(** ** Strings *)

(** [s.rstrip(c)] for a one-character argument: every trailing [c] goes. *)
Fixpoint rstrip (c : ascii) (s : string) : string :=
  match s with
  | EmptyString => EmptyString
  | String a s' =>
      match rstrip c s' with
      | EmptyString => if Ascii.eqb a c then EmptyString else String a EmptyString
      | r => String a r
      end
  end.

(** Truth value of a string, and of an [Optional[str]]. *)
Definition str_truthy (s : string) : bool :=
  match s with
  | EmptyString => false
  | String _ _ => true
  end.

Definition truthy (o : option string) : bool :=
  match o with
  | Some s => str_truthy s
  | None => false
  end.

(** ** The client object *)

Record Session : Type := mkSession {
  headers : gmap string string
}.

Record TalosClient : Type := mkTalosClient {
  base_url : string;
  api_key : option string;
  session : Session
}.

(** ** The monad of client methods *)

Inductive event : Type :=
| EvSend (r : Request)              (* session.get or session.post was called *)
| EvRaiseForStatus (r : Response)   (* response.raise_for_status() was called *)
| EvJson (r : Response).            (* response.json() was called *)

Record state : Type := mkState {
  self : TalosClient;
  trace : list event
}.

Definition M (A : Type) : Type := state → result A * state.

#[global] Instance M_ret : MRet M := λ A a st, (Ok a, st).
#[global] Instance M_bind : MBind M := λ A B f m st,
  match m st with
  | (Ok a, st') => f a st'
  | (Err e, st') => (Err e, st')
  end.

#[global] Instance M_fmap : FMap M := λ A B f m st,
  match m st with
  | (Ok a, st') => (Ok (f a), st')
  | (Err e, st') => (Err e, st')
  end.

Definition raise {A : Type} (e : exn) : M A := λ st, (Err e, st).

Definition lift {A : Type} (r : result A) : M A := λ st, (r, st).

Definition get_self : M TalosClient := λ st, (Ok (self st), st).

Definition log (e : event) : M unit :=
  λ st, (Ok tt, {| self := self st; trace := trace st ++ [e] |}).

(** [x.update({key: value})] on the session's headers. *)
Definition headers_update (key value : string) (c : TalosClient) : TalosClient :=
  {| base_url := base_url c;
     api_key := api_key c;
     session := {| headers := <[key := value]> (headers (session c)) |} |}.

Definition sent (tr : list event) : list Request :=
  omap (λ e, match e with EvSend r => Some r | _ => None end) tr.

Definition json_calls (tr : list event) : list Response :=
  omap (λ e, match e with EvJson r => Some r | _ => None end) tr.

Section Client.

(** The remote end as the session presents it: what a call of the
    session returns, a response, or the message of the exception it
    raises. *)
Variable server : Request → string + Response.

(** The headers of a fresh [requests.Session]. *)
Variable default_headers : gmap string string.

(** ** The parts of [requests] the client calls *)

Definition Session_new : Session := {| headers := default_headers |}.

(** [session.request(method, url, params=..., json=...)]: the call is
    recorded with the headers of the session, and returns or raises what
    the remote end gives for it. *)
Definition Session_request (method url : string) (params : gmap string string)
    (json : option pyval) : M Response :=
  c ← get_self;
  let req := {| req_method := method; req_url := url; req_params := params;
                req_json := json; req_headers := headers (session c) |} in
  log (EvSend req);;
  match server req with
  | inl msg => raise (TransportError msg)
  | inr response => mret response
  end.

Definition Session_get (url : string) (params : gmap string string) : M Response :=
  Session_request "GET" url params None.

Definition Session_post (url : string) (json : pyval) : M Response :=
  Session_request "POST" url ∅ (Some json).

(** [Response.raise_for_status]: an [HTTPError] holding the response for a
    client error (4xx) or a server error (5xx), nothing otherwise. *)
Definition raise_for_status (response : Response) : M unit :=
  log (EvRaiseForStatus response);;
  if bool_decide (400 ≤ status_code response < 600)
  then raise (HTTPError response)
  else mret tt.

(** [Response.json]. *)
Definition Response_json (response : Response) : M pyval :=
  log (EvJson response);;
  match decoded response with
  | Some v => mret v
  | None => raise (JSONDecodeError (text response))
  end.

(** ** [TalosClient] *)

Definition __init__ (base_url : option string) (api_key : option string) : TalosClient :=
  let self := {| base_url := rstrip "/" (default "http://localhost:8080"%string base_url);
                 api_key := api_key;
                 session := Session_new |} in
  match api_key with
  | Some key =>
      if str_truthy key
      then headers_update "Authorization" ("Bearer " +:+ key) self
      else self
  | None => self
  end.

Definition health : M pyval :=
  self ← get_self;
  response ← Session_get (base_url self +:+ "/health") ∅;
  raise_for_status response;;
  Response_json response.

Definition get_swarm_status : M SwarmStatus :=
  self ← get_self;
  response ← Session_get (base_url self +:+ "/api/swarm/live") ∅;
  raise_for_status response;;
  data ← Response_json response;
  lift (
    active_tier ← getitem data "active_tier";
    ts ← getitem data "tier_status";
    ts ← iterate ts;
    tier_status ← mapM (λ t, kwargs t ≫= TierStatus_init) ts;
    current_action ← getitem data "current_action";
    queue_depth ← getitem data "queue_depth";
    mret (mkSwarmStatus active_tier tier_status current_action queue_depth)).

Definition run_optimization (type : option string) (risk_limit : option float)
    (dry_run : option bool) : M pyval :=
  let type := default "full"%string type in
  let risk_limit := default 7.0%float risk_limit in
  let dry_run := default true dry_run in
  self ← get_self;
  let payload : gmap string pyval :=
    <["type" := PyStr type]> (<["risk_limit" := PyFloat risk_limit]>
      (<["dry_run" := PyBool dry_run]> ∅)) in
  response ← Session_post (base_url self +:+ "/api/optimize") (PyDict payload);
  raise_for_status response;;
  Response_json response.

Definition get_resources (provider resource_type : option string) : M (list Resource) :=
  self ← get_self;
  let params : gmap string string := ∅ in
  let params :=
    match provider with
    | Some p => if str_truthy p then <["provider" := p]> params else params
    | None => params
    end in
  let params :=
    match resource_type with
    | Some t => if str_truthy t then <["type" := t]> params else params
    | None => params
    end in
  response ← Session_get (base_url self +:+ "/api/resources") params;
  raise_for_status response;;
  data ← Response_json response;
  lift (rs ← iterate data; mapM (λ r, kwargs r ≫= Resource_init) rs).

Definition get_roi : M ROI :=
  self ← get_self;
  response ← Session_get (base_url self +:+ "/api/roi") ∅;
  raise_for_status response;;
  data ← Response_json response;
  lift (kwargs data ≫= ROI_init).

Definition chat (message : string) : M pyval :=
  self ← get_self;
  response ← Session_post (base_url self +:+ "/api/ai/chat")
               (PyDict {[ "message"%string := PyStr message ]});
  raise_for_status response;;
  data ← Response_json response;
  lift (getitem data "response").

Definition get_recommendations : M pyval :=
  self ← get_self;
  response ← Session_get (base_url self +:+ "/api/recommendations") ∅;
  raise_for_status response;;
  Response_json response.

(** ** Calls, for statements about every method *)

Inductive call : Type :=
| call_health
| call_get_swarm_status
| call_run_optimization (type : option string) (risk_limit : option float)
    (dry_run : option bool)
| call_get_resources (provider resource_type : option string)
| call_get_roi
| call_chat (message : string)
| call_get_recommendations.

Inductive retval : Type :=
| ret_json (v : pyval)
| ret_swarm (s : SwarmStatus)
| ret_resources (rs : list Resource)
| ret_roi (r : ROI).

Definition invoke (c : call) : M retval :=
  match c with
  | call_health => ret_json <$> health
  | call_get_swarm_status => ret_swarm <$> get_swarm_status
  | call_run_optimization t r d => ret_json <$> run_optimization t r d
  | call_get_resources p t => ret_resources <$> get_resources p t
  | call_get_roi => ret_roi <$> get_roi
  | call_chat m => ret_json <$> chat m
  | call_get_recommendations => ret_json <$> get_recommendations
  end.

(** A call on client [c], from an empty trace. *)
Definition run {A : Type} (m : M A) (c : TalosClient) : result A * state :=
  m {| self := c; trace := [] |}.

(** The request a method builds on client [c]. *)
Definition GET (c : TalosClient) (path : string) (params : gmap string string) : Request :=
  {| req_method := "GET"; req_url := base_url c +:+ path; req_params := params;
     req_json := None; req_headers := headers (session c) |}.

Definition POST (c : TalosClient) (path : string) (json : pyval) : Request :=
  {| req_method := "POST"; req_url := base_url c +:+ path; req_params := ∅;
     req_json := Some json; req_headers := headers (session c) |}.

(** The one exchange every method performs, spelled out by cases: request
    [req] goes out, the status is looked at, then the body is decoded and
    handed to [k]. *)
Definition outcome {A : Type} (req : Request) (k : pyval → result A) (c : TalosClient)
  : result A * state :=
  match server req with
  | inl msg => (Err (TransportError msg), mkState c [EvSend req])
  | inr r =>
      if bool_decide (400 ≤ status_code r < 600)
      then (Err (HTTPError r), mkState c [EvSend req; EvRaiseForStatus r])
      else match decoded r with
           | None => (Err (JSONDecodeError (text r)),
                      mkState c [EvSend req; EvRaiseForStatus r; EvJson r])
           | Some v => (k v, mkState c [EvSend req; EvRaiseForStatus r; EvJson r])
           end
  end.

(** Method [m], called on client [c], sends one request and the server
    answers it with [response]. *)
Definition answered {A : Type} (m : M A) (c : TalosClient) (response : Response) : Prop :=
  ∃ req, sent (trace (snd (run m c))) = [req] ∧ server req = inr response.

End Client.

(** ** The parts of each method, named

    What the methods build inline: the lemmas of the next part show that
    each method is [outcome] on these. *)

(** The expression [get_swarm_status] returns, as a function of [data]. *)
Definition decode_swarm (data : pyval) : result SwarmStatus :=
  active_tier ← getitem data "active_tier";
  ts ← getitem data "tier_status";
  ts ← iterate ts;
  tier_status ← mapM (λ t, kwargs t ≫= TierStatus_init) ts;
  current_action ← getitem data "current_action";
  queue_depth ← getitem data "queue_depth";
  mret (mkSwarmStatus active_tier tier_status current_action queue_depth).

(** The [payload] of [run_optimization], defaults filled in. *)
Definition optimize_payload (type : option string) (risk_limit : option float)
    (dry_run : option bool) : gmap string pyval :=
  <["type" := PyStr (default "full"%string type)]>
    (<["risk_limit" := PyFloat (default 7.0%float risk_limit)]>
      (<["dry_run" := PyBool (default true dry_run)]> ∅)).

(** The [params] of [get_resources]. *)
Definition resource_params (provider resource_type : option string) : gmap string string :=
  let params : gmap string string := ∅ in
  let params :=
    match provider with
    | Some p => if str_truthy p then <["provider" := p]> params else params
    | None => params
    end in
  match resource_type with
  | Some t => if str_truthy t then <["type" := t]> params else params
  | None => params
  end.

(** The request of each call and what is done with the decoded body. *)
Definition request_of (cl : call) (c : TalosClient) : Request :=
  match cl with
  | call_health => GET c "/health" ∅
  | call_get_swarm_status => GET c "/api/swarm/live" ∅
  | call_run_optimization t r d => POST c "/api/optimize" (PyDict (optimize_payload t r d))
  | call_get_resources p t => GET c "/api/resources" (resource_params p t)
  | call_get_roi => GET c "/api/roi" ∅
  | call_chat m => POST c "/api/ai/chat" (PyDict {[ "message"%string := PyStr m ]})
  | call_get_recommendations => GET c "/api/recommendations" ∅
  end.

Definition decoder_of (cl : call) (data : pyval) : result retval :=
  match cl with
  | call_health | call_run_optimization _ _ _ | call_get_recommendations =>
      Ok (ret_json data)
  | call_get_swarm_status => ret_swarm <$> decode_swarm data
  | call_get_resources _ _ =>
      ret_resources <$> (rs ← iterate data; mapM (λ r, kwargs r ≫= Resource_init) rs)
  | call_get_roi => ret_roi <$> (kwargs data ≫= ROI_init)
  | call_chat _ => ret_json <$> getitem data "response"
  end.

(** ** The documented JSON shapes *)

Definition TierStatus_json (t : TierStatus) : pyval :=
  PyDict (<["tier" := tier t]> (<["name" := name t]> (<["model" := model t]>
    (<["active" := active t]> (<["requests_today" := requests_today t]>
    (<["avg_latency_ms" := avg_latency_ms t]> (<["success_rate" := success_rate t]>
    (<["status" := status t]> ∅)))))))).

Definition SwarmStatus_json (s : SwarmStatus) : pyval :=
  PyDict (<["active_tier" := active_tier s]>
    (<["tier_status" := PyList (TierStatus_json <$> tier_status s)]>
    (<["current_action" := current_action s]> (<["queue_depth" := queue_depth s]> ∅)))).

Definition Resource_json (r : Resource) : pyval :=
  PyDict (<["id" := id r]> (<["type" := type r]> (<["provider" := provider r]>
    (<["region" := region r]> (<["cost_per_month" := cost_per_month r]>
    (<["optimization_score" := optimization_score r]> (<["tags" := tags r]> ∅))))))).

Definition ROI_json (r : ROI) : pyval :=
  PyDict (<["ratio" := ratio r]> (<["total_savings" := total_savings r]>
    (<["total_cost" := total_cost r]> (<["net_profit" := net_profit r]> ∅)))).

Definition SwarmStatus_fields : list string :=
  ["active_tier"; "tier_status"; "current_action"; "queue_depth"]%string.

(** A string of [n] slashes. *)
Fixpoint slashes (n : nat) : string :=
  match n with
  | O => EmptyString
  | S n' => String "/" (slashes n')
  end.

(** The last character of a string, if any. *)
Fixpoint last_char (s : string) : option ascii :=
  match s with
  | EmptyString => None
  | String a EmptyString => Some a
  | String _ s' => last_char s'
  end.

(** ** Concrete servers and responses, for the examples *)

(** Headers a [requests] session starts with. *)
Definition session_defaults : gmap string string :=
  <["User-Agent" := "python-requests"]> (<["Accept-Encoding" := "gzip, deflate"]>
    (<["Accept" := "*/*"]> (<["Connection" := "keep-alive"]> ∅))).

(** The double quote character, and a quoted JSON key followed by a colon. *)
Definition dquote : string := String (ascii_of_nat 34) EmptyString.

Definition jkey (k : string) : string := dquote +:+ k +:+ dquote +:+ ":".

Definition roi_response : Response :=
  {| status_code := 200;
     text := "{" +:+ jkey "ratio" +:+ "3.5," +:+ jkey "total_savings" +:+ "1000.0,"
             +:+ jkey "total_cost" +:+ "200.0," +:+ jkey "net_profit" +:+ "800.0}";
     decoded := Some (PyDict (<["ratio" := PyFloat 3.5%float]>
                 (<["total_savings" := PyFloat 1000.0%float]>
                 (<["total_cost" := PyFloat 200.0%float]>
                 (<["net_profit" := PyFloat 800.0%float]> ∅))))) |}.

(** A body in which [net_profit] is missing. *)
Definition short_roi_response : Response :=
  {| status_code := 200;
     text := "{" +:+ jkey "ratio" +:+ "3.5," +:+ jkey "total_savings" +:+ "1000.0,"
             +:+ jkey "total_cost" +:+ "200.0}";
     decoded := Some (PyDict (<["ratio" := PyFloat 3.5%float]>
                 (<["total_savings" := PyFloat 1000.0%float]>
                 (<["total_cost" := PyFloat 200.0%float]> ∅)))) |}.

(** A body with a key that [ROI] does not declare. *)
Definition long_roi_response : Response :=
  {| status_code := 200;
     text := "{" +:+ jkey "ratio" +:+ "3.5," +:+ jkey "total_savings" +:+ "1000.0,"
             +:+ jkey "total_cost" +:+ "200.0," +:+ jkey "net_profit" +:+ "800.0,"
             +:+ jkey "currency" +:+ dquote +:+ "USD" +:+ dquote +:+ "}";
     decoded := Some (PyDict (<["ratio" := PyFloat 3.5%float]>
                 (<["total_savings" := PyFloat 1000.0%float]>
                 (<["total_cost" := PyFloat 200.0%float]>
                 (<["net_profit" := PyFloat 800.0%float]>
                 (<["currency" := PyStr "USD"]> ∅)))))) |}.

Definition not_found_response : Response :=
  {| status_code := 404; text := "Not Found"; decoded := None |}.

(** 304 Not Modified comes without a body. *)
Definition not_modified_response : Response :=
  {| status_code := 304; text := ""; decoded := None |}.

(** 300 Multiple Choices with a JSON body. *)
Definition multiple_choices_response : Response :=
  {| status_code := 300; text := "{}"; decoded := Some (PyDict ∅) |}.

(** A server that answers every request with the same response. *)
Definition always (response : Response) : Request → string + Response :=
  λ _, inr response.

(** A server that cannot be reached. *)
Definition unreachable : Request → string + Response :=
  λ _, inl "Connection refused"%string.

(** A 200 whose body is a page of HTML. *)
Definition html_response : Response :=
  {| status_code := 200; text := "<html></html>"; decoded := None |}.


(** JSON text by hand: a quoted string, and an object from its keys and
    the texts of their values. *)
Definition jstr (s : string) : string := dquote +:+ s +:+ dquote.

Fixpoint jitems (kvs : list (string * string)) : string :=
  match kvs with
  | [] => EmptyString
  | [(k, v)] => jkey k +:+ v
  | (k, v) :: rest => jkey k +:+ v +:+ "," +:+ jitems rest
  end.

Definition jobj (kvs : list (string * string)) : string := "{" +:+ jitems kvs +:+ "}".


Definition vm_resource_text : string :=
  jobj [("id", jstr "i-1"); ("type", jstr "vm"); ("provider", jstr "aws");
        ("region", jstr "eu-west-1"); ("cost_per_month", "12.5");
        ("optimization_score", "0.5"); ("tags", "{}")]%string.

Definition vm_resource : Resource :=
  {| id := PyStr "i-1"; type := PyStr "vm"; provider := PyStr "aws";
     region := PyStr "eu-west-1"; cost_per_month := PyFloat 12.5%float;
     optimization_score := PyFloat 0.5%float; tags := PyDict ∅ |}.

(** A list of two resources, the second without its [tags]. *)
Definition resources_response : Response :=
  {| status_code := 200;
     text := "[" +:+ vm_resource_text +:+ "," +:+ jobj [("id", jstr "i-2")]%string
             +:+ ",0]";
     decoded := Some (PyList [Resource_json vm_resource;
                              PyDict (<["id" := PyStr "i-2"]> ∅);
                              PyInt 0]) |}.

(** A list of one well-formed resource. *)
Definition one_resource_response : Response :=
  {| status_code := 200; text := "[" +:+ vm_resource_text +:+ "]";
     decoded := Some (PyList [Resource_json vm_resource]) |}.

Definition idle_tier_text : string :=
  jobj [("tier", "1"); ("name", jstr "scout"); ("model", jstr "small");
        ("active", "true"); ("requests_today", "0"); ("avg_latency_ms", "0.5");
        ("success_rate", "1.0"); ("status", jstr "idle")]%string.

Definition idle_tier : TierStatus :=
  {| tier := PyInt 1; name := PyStr "scout"; model := PyStr "small";
     active := PyBool true; requests_today := PyInt 0;
     avg_latency_ms := PyFloat 0.5%float; success_rate := PyFloat 1.0%float;
     status := PyStr "idle" |}.

Definition idle_swarm : SwarmStatus :=
  {| active_tier := PyInt 1; tier_status := [idle_tier];
     current_action := PyStr "none"; queue_depth := PyInt 0 |}.

(** The swarm status [idle_swarm], as the server documents it. *)
Definition idle_swarm_response : Response :=
  {| status_code := 200;
     text := jobj [("active_tier", "1");
                   ("tier_status", "[" +:+ idle_tier_text +:+ "]");
                   ("current_action", jstr "none"); ("queue_depth", "0")]%string;
     decoded := Some (SwarmStatus_json idle_swarm) |}.

(** A swarm status with a top-level key that [SwarmStatus] does not have. *)
Definition swarm_response : Response :=
  {| status_code := 200;
     text := jobj [("uptime", "7"); ("active_tier", "1");
                   ("tier_status", "[" +:+ idle_tier_text +:+ "]");
                   ("current_action", jstr "none"); ("queue_depth", "0")]%string;
     decoded := Some (match SwarmStatus_json idle_swarm with
                      | PyDict d => PyDict (<["uptime" := PyInt 7]> d)
                      | v => v
                      end) |}.

(** A swarm status without [current_action] and without [queue_depth]. *)
Definition partial_swarm_response : Response :=
  {| status_code := 200;
     text := jobj [("active_tier", "1");
                   ("tier_status", "[" +:+ idle_tier_text +:+ "]")]%string;
     decoded := Some (PyDict (<["active_tier" := PyInt 1]>
                       (<["tier_status" := PyList [TierStatus_json idle_tier]]> ∅))) |}.

(** The first field of [fields] that dict [d] does not have. *)
Definition first_missing (fields : list string) (d : gmap string pyval) : option string :=
  find (λ f, bool_decide (d !! f = None)) fields.

(** A 200 whose body is the empty JSON object. *)
Definition empty_object_response : Response :=
  {| status_code := 200; text := "{}"; decoded := Some (PyDict ∅) |}.

(** * Facts about the model *)

(** ** Every method is one exchange *)

Section Exchange.

Variable server : Request → string + Response.

Ltac run_method :=
  unfold run, outcome, GET, POST, Session_get, Session_post, Session_request,
    raise_for_status, Response_json, get_self, log, lift, raise,
    mbind, mret, fmap, M_bind, M_ret, M_fmap;
  simpl;
  repeat (match goal with
          | |- context [server ?r] => destruct (server r) as [?msg|?resp]; simpl
          | |- context [bool_decide ?P] => destruct (bool_decide P); simpl
          | |- context [decoded ?r] => destruct (decoded r) as [?v|]; simpl
          end);
  try reflexivity.


Lemma get_swarm_status_outcome c :
  run (get_swarm_status server) c =
  outcome server (GET c "/api/swarm/live" ∅) decode_swarm c.
Proof. unfold get_swarm_status, decode_swarm. run_method. Qed.

Lemma run_optimization_outcome t r d c :
  run (run_optimization server t r d) c =
  outcome server (POST c "/api/optimize" (PyDict (optimize_payload t r d))) Ok c.
Proof. unfold run_optimization, optimize_payload. run_method. Qed.

Lemma get_resources_outcome p t c :
  run (get_resources server p t) c =
  outcome server (GET c "/api/resources" (resource_params p t))
    (λ data, rs ← iterate data; mapM (λ r, kwargs r ≫= Resource_init) rs) c.
Proof. unfold get_resources, resource_params. run_method. Qed.

Lemma get_roi_outcome c :
  run (get_roi server) c =
  outcome server (GET c "/api/roi" ∅) (λ data, kwargs data ≫= ROI_init) c.
Proof. unfold get_roi. run_method. Qed.




Lemma invoke_outcome cl c :
  run (invoke server cl) c = outcome server (request_of cl c) (decoder_of cl) c.
Proof.
  destruct cl; unfold invoke, request_of, decoder_of, health, get_swarm_status,
    run_optimization, get_resources, get_roi, chat, get_recommendations,
    decode_swarm, optimize_payload, resource_params; run_method.
  all: unfold result_fmap;
    match goal with
    | |- match ?r with Ok _ => _ | Err _ => _ end = _ => destruct r; reflexivity
    end.
Qed.

Lemma outcome_sent {A} req (k : pyval → result A) c :
  sent (trace (snd (outcome server req k c))) = [req].
Proof.
  unfold outcome.
  destruct (server req); [reflexivity|].
  destruct (bool_decide _); [reflexivity|].
  destruct (decoded _); reflexivity.
Qed.

Lemma outcome_self {A} req (k : pyval → result A) c :
  self (snd (outcome server req k c)) = c.
Proof.
  unfold outcome.
  destruct (server req); [reflexivity|].
  destruct (bool_decide _); [reflexivity|].
  destruct (decoded _); reflexivity.
Qed.

Lemma outcome_answered {A} (m : M A) req (k : pyval → result A) c response :
  run m c = outcome server req k c →
  answered server m c response → server req = inr response.
Proof.
  intros Hrun (req' & Hsent & Hresp).
  rewrite Hrun, outcome_sent in Hsent. congruence.
Qed.

Lemma outcome_http_error {A} req (k : pyval → result A) c response :
  server req = inr response →
  400 ≤ status_code response < 600 →
  outcome server req k c =
    (Err (HTTPError response), mkState c [EvSend req; EvRaiseForStatus response]).
Proof.
  intros Hresp Hcode. unfold outcome. rewrite Hresp.
  rewrite bool_decide_true by done. reflexivity.
Qed.

Lemma outcome_decoded {A} req (k : pyval → result A) c response data :
  server req = inr response →
  ¬ (400 ≤ status_code response < 600) →
  decoded response = Some data →
  outcome server req k c =
    (k data, mkState c [EvSend req; EvRaiseForStatus response; EvJson response]).
Proof.
  intros Hresp Hcode Hdata. unfold outcome. rewrite Hresp.
  rewrite bool_decide_false by done. rewrite Hdata. reflexivity.
Qed.

End Exchange.

(** ** Dataclass construction and list comprehensions *)

Section Decoding.

Lemma mapM_cons {A B} (f : A → result B) (x : A) (l : list A) :
  mapM f (x :: l) = y ← f x; k ← mapM f l; mret (y :: k).
Proof. reflexivity. Qed.

Lemma mapM_encoded {A} (f : pyval → result A) (g : A → pyval) (l : list A) :
  (∀ x, f (g x) = Ok x) → mapM f (g <$> l) = Ok l.
Proof.
  intros Hfg. induction l as [|x l IH]; [reflexivity|].
  rewrite fmap_cons, mapM_cons, Hfg, IH. reflexivity.
Qed.

Lemma mapM_failing {A} (f : pyval → result A) (l : list pyval) (x : pyval) :
  x ∈ l → (∃ e, f x = Err e) →
  ∃ y e, y ∈ l ∧ f y = Err e ∧ mapM f l = Err e.
Proof.
  intros Hx Hfx. induction l as [|z l IH]; [by apply elem_of_nil in Hx|].
  rewrite mapM_cons. destruct (f z) as [a|e] eqn:Hz.
  - apply elem_of_cons in Hx as [->|Hx].
    + destruct Hfx as [e He]. congruence.
    + destruct (IH Hx) as (y & e & Hy & Hfy & HM).
      exists y, e. rewrite HM. split_and!; [by right | done | done].
  - exists z, e. split_and!; [by left | done | done].
Qed.

Lemma check_keywords_fields fields (kw : gmap string pyval) :
  dom kw ⊆ (list_to_set fields : gset string) → check_keywords fields kw = Ok tt.
Proof. intros H. unfold check_keywords. by rewrite bool_decide_true. Qed.

Lemma check_keywords_unexpected fields (kw : gmap string pyval) key :
  is_Some (kw !! key) → key ∉ fields →
  check_keywords fields kw = Err (TypeError unexpected_keyword).
Proof.
  intros Hin Hnot. unfold check_keywords. rewrite bool_decide_false; [done|].
  intros Hsub. apply Hnot. apply elem_of_dom in Hin.
  apply Hsub in Hin. by apply elem_of_list_to_set in Hin.
Qed.

Lemma check_keywords_error fields (kw : gmap string pyval) e :
  check_keywords fields kw = Err e → e = TypeError unexpected_keyword.
Proof. unfold check_keywords. destruct (bool_decide _); congruence. Qed.

(** Case analysis on the lookups a dataclass constructor performs. *)
Ltac init_cases kw H :=
  unfold required; rewrite H; simpl;
  repeat match goal with
         | |- context [match kw !! ?f with _ => _ end] => destruct (kw !! f); simpl
         end;
  eauto.

Ltac field_cases H :=
  repeat (apply elem_of_cons in H as [->|H]); [..| by apply elem_of_nil in H].

Lemma TierStatus_init_json t : kwargs (TierStatus_json t) ≫= TierStatus_init = Ok t.
Proof.
  destruct t. simpl. unfold TierStatus_init.
  rewrite check_keywords_fields.
  2:{ rewrite !dom_insert_L, dom_empty_L. simpl. set_solver. }
  simpl. unfold required. by simplify_map_eq.
Qed.

Lemma Resource_init_json r : kwargs (Resource_json r) ≫= Resource_init = Ok r.
Proof.
  destruct r. simpl. unfold Resource_init.
  rewrite check_keywords_fields.
  2:{ rewrite !dom_insert_L, dom_empty_L. simpl. set_solver. }
  simpl. unfold required. by simplify_map_eq.
Qed.

Lemma ROI_init_json r : kwargs (ROI_json r) ≫= ROI_init = Ok r.
Proof.
  destruct r. simpl. unfold ROI_init.
  rewrite check_keywords_fields.
  2:{ rewrite !dom_insert_L, dom_empty_L. simpl. set_solver. }
  simpl. unfold required. by simplify_map_eq.
Qed.

Lemma TierStatus_init_missing kw f :
  f ∈ TierStatus_fields → kw !! f = None →
  ∃ why, TierStatus_init kw = Err (TypeError why).
Proof.
  intros Hf Hkw. unfold TierStatus_init.
  destruct (check_keywords _ _) as [[]|e] eqn:Hck; simpl;
    [| apply check_keywords_error in Hck as ->; eauto].
  unfold TierStatus_fields in Hf. field_cases Hf; init_cases kw Hkw.
Qed.

Lemma Resource_init_missing kw f :
  f ∈ Resource_fields → kw !! f = None →
  ∃ why, Resource_init kw = Err (TypeError why).
Proof.
  intros Hf Hkw. unfold Resource_init.
  destruct (check_keywords _ _) as [[]|e] eqn:Hck; simpl;
    [| apply check_keywords_error in Hck as ->; eauto].
  unfold Resource_fields in Hf. field_cases Hf; init_cases kw Hkw.
Qed.

Lemma ROI_init_missing kw f :
  f ∈ ROI_fields → kw !! f = None →
  ∃ why, ROI_init kw = Err (TypeError why).
Proof.
  intros Hf Hkw. unfold ROI_init.
  destruct (check_keywords _ _) as [[]|e] eqn:Hck; simpl;
    [| apply check_keywords_error in Hck as ->; eauto].
  unfold ROI_fields in Hf. field_cases Hf; init_cases kw Hkw.
Qed.

End Decoding.

(** ** Failures of decoding are decode failures *)

Section Errors.

Lemma getitem_error obj key e : getitem obj key = Err e → kind_of e = decode_failure.
Proof.
  destruct obj; simpl; try (intros [= <-]; reflexivity).
  destruct (d !! key); intros [= <-]; reflexivity.
Qed.

Lemma iterate_error obj e : iterate obj = Err e → kind_of e = decode_failure.
Proof. destruct obj; simpl; intros [= <-]; reflexivity. Qed.

Lemma kwargs_error obj e : kwargs obj = Err e → ∃ why, e = TypeError why.
Proof. destruct obj; simpl; intros [= <-]; eauto. Qed.

Lemma mapM_error {A} (P : exn → Prop) (f : pyval → result A) l e :
  (∀ x e', f x = Err e' → P e') → mapM f l = Err e → P e.
Proof.
  intros Hf. induction l as [|x l IH]; [discriminate|].
  rewrite mapM_cons. destruct (f x) as [a|e'] eqn:Hx; simpl.
  - destruct (mapM f l) as [k|e'']; simpl; [discriminate|].
    intros [= <-]. by apply IH.
  - intros [= <-]. eauto.
Qed.

Ltac init_error kw :=
  unfold required;
  repeat match goal with
         | |- context [match kw !! ?f with _ => _ end] => destruct (kw !! f); simpl
         end;
  intros [= <-]; eauto.

Lemma TierStatus_init_error kw e : TierStatus_init kw = Err e → ∃ why, e = TypeError why.
Proof.
  unfold TierStatus_init.
  destruct (check_keywords _ _) as [[]|e'] eqn:Hck; simpl;
    [| apply check_keywords_error in Hck as ->; intros [= <-]; eauto].
  init_error kw.
Qed.

Lemma Resource_init_error kw e : Resource_init kw = Err e → ∃ why, e = TypeError why.
Proof.
  unfold Resource_init.
  destruct (check_keywords _ _) as [[]|e'] eqn:Hck; simpl;
    [| apply check_keywords_error in Hck as ->; intros [= <-]; eauto].
  init_error kw.
Qed.

Lemma ROI_init_error kw e : ROI_init kw = Err e → ∃ why, e = TypeError why.
Proof.
  unfold ROI_init.
  destruct (check_keywords _ _) as [[]|e'] eqn:Hck; simpl;
    [| apply check_keywords_error in Hck as ->; intros [= <-]; eauto].
  init_error kw.
Qed.

Lemma construct_error {A} (init : gmap string pyval → result A) obj e :
  (∀ kw e', init kw = Err e' → ∃ why, e' = TypeError why) →
  kwargs obj ≫= init = Err e → ∃ why, e = TypeError why.
Proof.
  intros Hinit. destruct (kwargs obj) as [kw|e'] eqn:Hkw; simpl.
  - apply Hinit.
  - intros [= <-]. by apply kwargs_error in Hkw.
Qed.

Lemma decode_resources_error data e :
  (rs ← iterate data; mapM (λ r, kwargs r ≫= Resource_init) rs) = Err e →
  kind_of e = decode_failure.
Proof.
  destruct (iterate data) as [rs|e'] eqn:Hit; simpl.
  - apply (mapM_error (λ e, kind_of e = decode_failure)). intros x e' He'.
    apply (construct_error Resource_init) in He' as [why ->];
      [reflexivity | apply Resource_init_error].
  - intros [= <-]. by apply iterate_error in Hit.
Qed.

Lemma decode_roi_error data e :
  kwargs data ≫= ROI_init = Err e → kind_of e = decode_failure.
Proof.
  intros He. apply (construct_error ROI_init) in He as [why ->];
    [reflexivity | apply ROI_init_error].
Qed.

Lemma decode_swarm_error data e :
  decode_swarm data = Err e → kind_of e = decode_failure.
Proof.
  unfold decode_swarm.
  destruct (getitem data "active_tier") as [a|e1] eqn:H1; simpl;
    [| intros [= <-]; by apply getitem_error in H1].
  destruct (getitem data "tier_status") as [ts|e2] eqn:H2; simpl;
    [| intros [= <-]; by apply getitem_error in H2].
  destruct (iterate ts) as [l|e3] eqn:H3; simpl;
    [| intros [= <-]; by apply iterate_error in H3].
  destruct (mapM _ l) as [tiers|e4] eqn:H4; simpl.
  - destruct (getitem data "current_action") as [ca|e5] eqn:H5; simpl;
      [| intros [= <-]; by apply getitem_error in H5].
    destruct (getitem data "queue_depth") as [q|e6] eqn:H6; simpl;
      [discriminate | intros [= <-]; by apply getitem_error in H6].
  - intros [= <-]. revert H4.
    apply (mapM_error (λ e, kind_of e = decode_failure)). intros x e' He'.
    apply (construct_error TierStatus_init) in He' as [why ->];
      [reflexivity | apply TierStatus_init_error].
Qed.

(** A top-level key that is absent makes the swarm decoding fail. *)
Lemma decode_swarm_missing d f :
  f ∈ SwarmStatus_fields → d !! f = None → ∃ e, decode_swarm (PyDict d) = Err e.
Proof.
  intros Hf Hd. unfold decode_swarm, SwarmStatus_fields in *.
  repeat (apply elem_of_cons in Hf as [->|Hf]); [..| by apply elem_of_nil in Hf];
    unfold getitem; rewrite ?Hd; simpl;
    repeat match goal with
           | |- context [match d !! ?f with _ => _ end] => destruct (d !! f); simpl
           | |- ∃ e, mbind _ ?r = Err e => destruct r; simpl
           end; eauto.
Qed.

(** A tier entry that cannot be built makes the swarm decoding fail. *)
Lemma decode_swarm_failing_tier d l x :
  d !! "tier_status" = Some (PyList l) → x ∈ l →
  (∃ e, kwargs x ≫= TierStatus_init = Err e) →
  ∃ e, decode_swarm (PyDict d) = Err e.
Proof.
  intros Hd Hx Hfail. unfold decode_swarm, getitem. rewrite Hd.
  destruct (d !! "active_tier"); simpl; [|eauto].
  destruct (mapM_failing (λ t, kwargs t ≫= TierStatus_init) l x Hx Hfail) as (y & e & _ & _ & ->). simpl. eauto.
Qed.

End Errors.

(** ** Stripping the base URL *)

Section Strings.

Lemma rstrip_app_slash s : rstrip "/" (s +:+ "/") = rstrip "/" s.
Proof.
  induction s as [|a s IH]; [reflexivity|].
  simpl. rewrite IH. reflexivity.
Qed.

Lemma rstrip_slashes s :
  ∃ n, s = rstrip "/" s +:+ slashes n ∧ last_char (rstrip "/" s) ≠ Some "/"%char.
Proof.
  induction s as [|a s (n & Hs & Hlast)]; [by exists O|].
  simpl. destruct (rstrip "/" s) as [|b r] eqn:Hr.
  - change (s = slashes n) in Hs.
    destruct (Ascii.eqb_spec a "/") as [->|Hne].
    + exists (S n). split; [change (String "/" s = String "/" (slashes n)) | simpl];
        congruence.
    + exists n. split; [change (String a s = String a (slashes n)) | simpl];
        congruence.
  - exists n. split; [| exact Hlast].
    change (String a s = String a (String b r +:+ slashes n)). congruence.
Qed.


End Strings.

(** * The claims *)

Lemma decode_swarm_json s : decode_swarm (SwarmStatus_json s) = Ok s.
Proof.
  destruct s as [a ts ca q]. unfold decode_swarm, SwarmStatus_json, getitem. simpl.
  simplify_map_eq. simpl.
  rewrite (mapM_encoded _ TierStatus_json ts TierStatus_init_json). reflexivity.
Qed.

Lemma decode_resources_json rs :
  (l ← iterate (PyList (Resource_json <$> rs));
   mapM (λ r, kwargs r ≫= Resource_init) l) = Ok rs.
Proof. simpl. apply mapM_encoded, Resource_init_json. Qed.

Lemma success_not_error (response : Response) :
  200 ≤ status_code response < 300 → ¬ (400 ≤ status_code response < 600).
Proof. lia. Qed.

(** C1: when the session call of [get_swarm_status], [get_resources] or
    [get_roi] returns a 2xx response whose decoded body has the documented
    shape, the method returns the record (or the list of records) whose
    fields are exactly the values of the body: decoding the JSON form of a
    record gives the record back. *)
Theorem roundtrip_identity server (c : TalosClient) (response : Response) :
  200 ≤ status_code response < 300 →
  (∀ s, server (GET c "/api/swarm/live" ∅) = inr response →
        decoded response = Some (SwarmStatus_json s) →
        fst (run (get_swarm_status server) c) = Ok s)
  ∧ (∀ p t rs, server (GET c "/api/resources" (resource_params p t)) = inr response →
        decoded response = Some (PyList (Resource_json <$> rs)) →
        fst (run (get_resources server p t) c) = Ok rs)
  ∧ (∀ r, server (GET c "/api/roi" ∅) = inr response →
        decoded response = Some (ROI_json r) →
        fst (run (get_roi server) c) = Ok r).
Proof.
  intros Hcode%success_not_error. split_and!.
  - intros s Hans Hbody.
    rewrite get_swarm_status_outcome, (outcome_decoded _ _ _ _ _ _ Hans Hcode Hbody).
    apply decode_swarm_json.
  - intros p t rs Hans Hbody.
    rewrite get_resources_outcome, (outcome_decoded _ _ _ _ _ _ Hans Hcode Hbody).
    apply decode_resources_json.
  - intros r Hans Hbody.
    rewrite get_roi_outcome, (outcome_decoded _ _ _ _ _ _ Hans Hcode Hbody).
    apply ROI_init_json.
Qed.

(** Three runs on the client of base URL [http://x]: a swarm status with
    one tier, a list of one resource fetched with [provider="aws"], and
    the scenario of the specification, in which the server answers
    [get_roi] with ratio 3.5, savings 1000.0, cost 200.0 and net profit
    800.0. *)
Lemma roundtrip_identity_roi_scenario :
  fst (run (get_swarm_status (always idle_swarm_response))
         (__init__ session_defaults (Some "http://x"%string) None))
    = Ok idle_swarm
  ∧ fst (run (get_resources (always one_resource_response) (Some "aws"%string) None)
         (__init__ session_defaults (Some "http://x"%string) None))
    = Ok [vm_resource]
  ∧ fst (run (get_roi (always roi_response))
         (__init__ session_defaults (Some "http://x"%string) None))
    = Ok (mkROI (PyFloat 3.5%float) (PyFloat 1000.0%float) (PyFloat 200.0%float)
            (PyFloat 800.0%float)).
Proof.
  split_and!.
  - refine (proj1 (roundtrip_identity (always idle_swarm_response)
              (__init__ session_defaults (Some "http://x"%string) None)
              idle_swarm_response _) idle_swarm eq_refl eq_refl).
    simpl. lia.
  - refine (proj1 (proj2 (roundtrip_identity (always one_resource_response)
              (__init__ session_defaults (Some "http://x"%string) None)
              one_resource_response _)) (Some "aws"%string) None [vm_resource]
              eq_refl eq_refl).
    simpl. lia.
  - refine (proj2 (proj2 (roundtrip_identity (always roi_response)
              (__init__ session_defaults (Some "http://x"%string) None)
              roi_response _)) _ eq_refl _).
    + simpl. lia.
    + vm_compute. reflexivity.
Defined.

(** C2, as amended: for every method and every response whose status is a
    client or server error (400 to 599), the call fails with the
    [HTTPError] that carries the response, status code and body included,
    and [response.json()] is never called. *)
Theorem http_error_before_decoding server (cl : call) (c : TalosClient)
    (response : Response) :
  answered server (invoke server cl) c response →
  400 ≤ status_code response < 600 →
  fst (run (invoke server cl) c) = Err (HTTPError response)
  ∧ json_calls (trace (snd (run (invoke server cl) c))) = [].
Proof.
  intros Hans Hcode.
  apply (outcome_answered _ _ _ _ _ _ (invoke_outcome server cl c)) in Hans.
  rewrite invoke_outcome, (outcome_http_error _ _ _ _ _ Hans Hcode). split; reflexivity.
Qed.

Lemma http_error_before_decoding_404 :
  fst (run (invoke (always not_found_response) call_health)
         (__init__ session_defaults (Some "http://x"%string) None))
    = Err (HTTPError not_found_response)
  ∧ json_calls (trace (snd (run (invoke (always not_found_response) call_health)
         (__init__ session_defaults (Some "http://x"%string) None)))) = [].
Proof.
  apply (http_error_before_decoding (always not_found_response) call_health
           (__init__ session_defaults (Some "http://x"%string) None) not_found_response).
  - eexists. split; [vm_compute; reflexivity | reflexivity].
  - simpl. lia.
Defined.

(** C2 as stated fails on statuses outside 2xx that are not errors: on a
    304 without body [health] does call [response.json()] and fails with a
    decode failure, and on a 300 with a JSON body it returns the body. *)
Lemma non_2xx_is_decoded :
  ¬ (200 ≤ status_code not_modified_response < 300)
  ∧ fst (run (health (always not_modified_response))
           (__init__ session_defaults (Some "http://x"%string) None))
      = Err (JSONDecodeError "")
  ∧ json_calls (trace (snd (run (health (always not_modified_response))
           (__init__ session_defaults (Some "http://x"%string) None))))
      = [not_modified_response]
  ∧ ¬ (200 ≤ status_code multiple_choices_response < 300)
  ∧ fst (run (health (always multiple_choices_response))
           (__init__ session_defaults (Some "http://x"%string) None))
      = Ok (PyDict ∅).
Proof.
  split_and!; try (vm_compute; reflexivity); simpl; lia.
Qed.

Lemma construct_failing_list {A} (init : gmap string pyval → result A) l d :
  PyDict d ∈ l → (∃ e, init d = Err e) →
  ∃ e, mapM (λ x, kwargs x ≫= init) l = Err e.
Proof.
  intros Hin Hfail.
  destruct (mapM_failing (λ x : pyval, mbind (M := result) init (kwargs x))
              l (PyDict d) Hin Hfail) as (y & e & _ & _ & HM).
  eauto.
Qed.

Lemma with_cause {A} (r : result A) (P : exn → Prop) :
  (∃ e, r = Err e) → (∀ e, r = Err e → P e) → ∃ e, r = Err e ∧ P e.
Proof. intros [e He] HP. exists e. eauto. Qed.

(** C3: on a 2xx response whose body lacks a required field of the target
    record ([ROI], [Resource], [SwarmStatus], or a [TierStatus] inside the
    swarm status), the call fails, and the failure is a decode failure, not
    an HTTP-status failure: nothing is filled in by default. *)
Theorem missing_field_is_decode_failure server (c : TalosClient) (response : Response) :
  200 ≤ status_code response < 300 →
  (∀ d f, answered server (get_roi server) c response →
      decoded response = Some (PyDict d) →
      f ∈ ROI_fields → d !! f = None →
      ∃ e, fst (run (get_roi server) c) = Err e ∧ kind_of e = decode_failure)
  ∧ (∀ p t l d f, answered server (get_resources server p t) c response →
      decoded response = Some (PyList l) → PyDict d ∈ l →
      f ∈ Resource_fields → d !! f = None →
      ∃ e, fst (run (get_resources server p t) c) = Err e ∧ kind_of e = decode_failure)
  ∧ (∀ d f, answered server (get_swarm_status server) c response →
      decoded response = Some (PyDict d) →
      f ∈ SwarmStatus_fields → d !! f = None →
      ∃ e, fst (run (get_swarm_status server) c) = Err e ∧ kind_of e = decode_failure)
  ∧ (∀ d l t f, answered server (get_swarm_status server) c response →
      decoded response = Some (PyDict d) →
      d !! "tier_status" = Some (PyList l) → PyDict t ∈ l →
      f ∈ TierStatus_fields → t !! f = None →
      ∃ e, fst (run (get_swarm_status server) c) = Err e ∧ kind_of e = decode_failure).
Proof.
  intros Hcode%success_not_error. split_and!.
  - intros d f Hans Hbody Hf Hd.
    apply (outcome_answered _ _ _ _ _ _ (get_roi_outcome server c)) in Hans.
    rewrite get_roi_outcome, (outcome_decoded _ _ _ _ _ _ Hans Hcode Hbody).
    apply with_cause; [| apply decode_roi_error].
    destruct (ROI_init_missing d f Hf Hd) as [why Hwhy]. simpl. eauto.
  - intros p t l d f Hans Hbody Hin Hf Hd.
    apply (outcome_answered _ _ _ _ _ _ (get_resources_outcome server p t c)) in Hans.
    rewrite get_resources_outcome, (outcome_decoded _ _ _ _ _ _ Hans Hcode Hbody).
    apply with_cause; [| apply decode_resources_error].
    apply (construct_failing_list Resource_init l d Hin).
    destruct (Resource_init_missing d f Hf Hd) as [why Hwhy]. eauto.
  - intros d f Hans Hbody Hf Hd.
    apply (outcome_answered _ _ _ _ _ _ (get_swarm_status_outcome server c)) in Hans.
    rewrite get_swarm_status_outcome, (outcome_decoded _ _ _ _ _ _ Hans Hcode Hbody).
    apply with_cause; [| apply decode_swarm_error].
    by apply (decode_swarm_missing d f).
  - intros d l t f Hans Hbody Hts Hin Hf Ht.
    apply (outcome_answered _ _ _ _ _ _ (get_swarm_status_outcome server c)) in Hans.
    rewrite get_swarm_status_outcome, (outcome_decoded _ _ _ _ _ _ Hans Hcode Hbody).
    apply with_cause; [| apply decode_swarm_error].
    apply (decode_swarm_failing_tier d l (PyDict t) Hts Hin).
    destruct (TierStatus_init_missing t f Hf Ht) as [why Hwhy]. simpl. eauto.
Qed.

Lemma missing_field_is_decode_failure_roi :
  ∃ e, fst (run (get_roi (always short_roi_response))
              (__init__ session_defaults (Some "http://x"%string) None)) = Err e
       ∧ kind_of e = decode_failure.
Proof.
  refine (proj1 (missing_field_is_decode_failure (always short_roi_response)
            (__init__ session_defaults (Some "http://x"%string) None)
            short_roi_response _) _ "net_profit"%string _ _ _ _).
  - simpl. lia.
  - eexists. split; [vm_compute; reflexivity | reflexivity].
  - reflexivity.
  - apply (bool_decide_unpack _). vm_compute. exact I.
  - vm_compute. reflexivity.
Defined.

(** C9: on a 2xx response in which an [ROI], [Resource] or [TierStatus]
    object carries a key that the record does not declare, the call fails
    with a decode failure (a [TypeError] for the unexpected keyword in the
    case of [get_roi]): unknown keys are refused as missing ones are. *)
Theorem unexpected_field_is_decode_failure server (c : TalosClient)
    (response : Response) :
  200 ≤ status_code response < 300 →
  (∀ d k, answered server (get_roi server) c response →
      decoded response = Some (PyDict d) →
      is_Some (d !! k) → k ∉ ROI_fields →
      fst (run (get_roi server) c) = Err (TypeError unexpected_keyword))
  ∧ (∀ p t l d k, answered server (get_resources server p t) c response →
      decoded response = Some (PyList l) → PyDict d ∈ l →
      is_Some (d !! k) → k ∉ Resource_fields →
      ∃ e, fst (run (get_resources server p t) c) = Err e ∧ kind_of e = decode_failure)
  ∧ (∀ d l t k, answered server (get_swarm_status server) c response →
      decoded response = Some (PyDict d) →
      d !! "tier_status" = Some (PyList l) → PyDict t ∈ l →
      is_Some (t !! k) → k ∉ TierStatus_fields →
      ∃ e, fst (run (get_swarm_status server) c) = Err e ∧ kind_of e = decode_failure).
Proof.
  intros Hcode%success_not_error. split_and!.
  - intros d k Hans Hbody Hk Hnot.
    apply (outcome_answered _ _ _ _ _ _ (get_roi_outcome server c)) in Hans.
    rewrite get_roi_outcome, (outcome_decoded _ _ _ _ _ _ Hans Hcode Hbody).
    simpl. unfold ROI_init.
    by rewrite (check_keywords_unexpected ROI_fields d k Hk Hnot).
  - intros p t l d k Hans Hbody Hin Hk Hnot.
    apply (outcome_answered _ _ _ _ _ _ (get_resources_outcome server p t c)) in Hans.
    rewrite get_resources_outcome, (outcome_decoded _ _ _ _ _ _ Hans Hcode Hbody).
    apply with_cause; [| apply decode_resources_error].
    apply (construct_failing_list Resource_init l d Hin).
    unfold Resource_init.
    rewrite (check_keywords_unexpected Resource_fields d k Hk Hnot). simpl. eauto.
  - intros d l t k Hans Hbody Hts Hin Hk Hnot.
    apply (outcome_answered _ _ _ _ _ _ (get_swarm_status_outcome server c)) in Hans.
    rewrite get_swarm_status_outcome, (outcome_decoded _ _ _ _ _ _ Hans Hcode Hbody).
    apply with_cause; [| apply decode_swarm_error].
    apply (decode_swarm_failing_tier d l (PyDict t) Hts Hin).
    simpl. unfold TierStatus_init.
    rewrite (check_keywords_unexpected TierStatus_fields t k Hk Hnot). simpl. eauto.
Qed.

Lemma unexpected_field_is_decode_failure_roi :
  fst (run (get_roi (always long_roi_response))
         (__init__ session_defaults (Some "http://x"%string) None))
  = Err (TypeError unexpected_keyword).
Proof.
  refine (proj1 (unexpected_field_is_decode_failure (always long_roi_response)
            (__init__ session_defaults (Some "http://x"%string) None)
            long_roi_response _) _ "currency"%string _ _ _ _).
  - simpl. lia.
  - eexists. split; [vm_compute; reflexivity | reflexivity].
  - reflexivity.
  - vm_compute. eauto.
  - apply (bool_decide_unpack _). vm_compute. exact I.
Defined.

(** ** What goes out *)

Lemma invoke_sent server cl c :
  sent (trace (snd (run (invoke server cl) c))) = [request_of cl c].
Proof. rewrite invoke_outcome. apply outcome_sent. Qed.

Lemma resource_params_lookup p t (k v : string) :
  resource_params p t !! k = Some v ↔
  (k = "provider"%string ∧ p = Some v ∧ v ≠ EmptyString)
  ∨ (k = "type"%string ∧ t = Some v ∧ v ≠ EmptyString).
Proof.
  unfold resource_params.
  destruct p as [[|a p]|], t as [[|b t]|]; simpl;
    rewrite ?lookup_insert_Some, ?lookup_empty; naive_solver.
Qed.

(** C4: called without arguments, [run_optimization] posts the body
    [{type: full, risk_limit: 7.0, dry_run: true}]; whatever the arguments,
    the [dry_run] that is sent is the caller's, [True] when none was given,
    so it is [False] exactly when the caller passed [False]. *)
Theorem run_optimization_dry_run_default server (c : TalosClient) :
  sent (trace (snd (run (run_optimization server None None None) c))) =
    [ {| req_method := "POST";
         req_url := base_url c +:+ "/api/optimize";
         req_params := ∅;
         req_json := Some (PyDict (<["type" := PyStr "full"]>
                      (<["risk_limit" := PyFloat 7.0%float]>
                      (<["dry_run" := PyBool true]> ∅))));
         req_headers := headers (session c) |} ]
  ∧ ∀ t r d, ∃ req payload,
      sent (trace (snd (run (run_optimization server t r d) c))) = [req]
      ∧ req_json req = Some (PyDict payload)
      ∧ payload !! "dry_run" = Some (PyBool (default true d))
      ∧ (payload !! "dry_run" = Some (PyBool false) ↔ d = Some false).
Proof.
  split.
  - rewrite run_optimization_outcome, outcome_sent. reflexivity.
  - intros t r d. eexists _, (optimize_payload t r d).
    rewrite run_optimization_outcome, outcome_sent.
    split_and!; [reflexivity | reflexivity | |].
    + unfold optimize_payload. by simplify_map_eq.
    + unfold optimize_payload. simplify_map_eq.
      destruct d as [[]|]; simpl; split; congruence.
Qed.

(** C5: [get_resources] without filters sends no query parameter; with
    [provider="aws"] alone it sends the one parameter [provider=aws] and
    no [type]; in general a parameter that is sent is [provider] or [type]
    with the value the caller gave for it, and a non-empty filter is sent. *)
Theorem get_resources_query_parameters server (c : TalosClient) :
  sent (trace (snd (run (get_resources server None None) c))) =
    [ {| req_method := "GET"; req_url := base_url c +:+ "/api/resources";
         req_params := ∅; req_json := None; req_headers := headers (session c) |} ]
  ∧ sent (trace (snd (run (get_resources server (Some "aws"%string) None) c))) =
    [ {| req_method := "GET"; req_url := base_url c +:+ "/api/resources";
         req_params := {[ "provider"%string := "aws"%string ]};
         req_json := None; req_headers := headers (session c) |} ]
  ∧ ({[ "provider"%string := "aws"%string ]} : gmap string string) !! "type"%string = None
  ∧ ∀ p t, ∃ req,
      sent (trace (snd (run (get_resources server p t) c))) = [req]
      ∧ (∀ k v, req_params req !! k = Some v →
           (k = "provider"%string ∧ p = Some v) ∨ (k = "type"%string ∧ t = Some v))
      ∧ (∀ v, p = Some v → v ≠ EmptyString → req_params req !! "provider" = Some v)
      ∧ (∀ v, t = Some v → v ≠ EmptyString → req_params req !! "type" = Some v).
Proof.
  split_and!.
  - rewrite get_resources_outcome, outcome_sent. reflexivity.
  - rewrite get_resources_outcome, outcome_sent. reflexivity.
  - reflexivity.
  - intros p t. eexists. rewrite get_resources_outcome, outcome_sent.
    split_and!; [reflexivity | | |]; simpl.
    + intros k v Hkv%resource_params_lookup. naive_solver.
    + intros v Hp Hv. apply resource_params_lookup. naive_solver.
    + intros v Ht Hv. apply resource_params_lookup. naive_solver.
Qed.

(** C10: an empty-string filter is treated as an absent one: the call
    with [provider=""] (or [resource_type=""]) does what the call without
    that filter does, and no request carries an empty filter value. *)
Theorem empty_filter_is_absent server (c : TalosClient) (p t : option string) :
  run (get_resources server (Some EmptyString) t) c = run (get_resources server None t) c
  ∧ run (get_resources server p (Some EmptyString)) c = run (get_resources server p None) c
  ∧ ∃ req, sent (trace (snd (run (get_resources server p t) c))) = [req]
      ∧ ∀ k, req_params req !! k ≠ Some EmptyString.
Proof.
  split_and!.
  - rewrite !get_resources_outcome. reflexivity.
  - rewrite !get_resources_outcome. unfold resource_params.
    destruct p as [[|a p]|]; reflexivity.
  - eexists. rewrite get_resources_outcome, outcome_sent. split; [reflexivity|].
    simpl. intros k Hk%resource_params_lookup. naive_solver.
Qed.

(** ** Construction *)






(** C7: the base URL is stored without its trailing slashes, so a client
    built from [base_url] and one built from [base_url + "/"] are the same
    client: same stored base URL, and every method sends its request to
    the same URL, the stored base URL followed by the method's path. *)
Theorem trailing_slash_stripped dh (b : string) (k : option string) :
  (∃ n, b = base_url (__init__ dh (Some b) k) +:+ slashes n
        ∧ last_char (base_url (__init__ dh (Some b) k)) ≠ Some "/"%char)
  ∧ base_url (__init__ dh (Some (b +:+ "/")) k) = base_url (__init__ dh (Some b) k)
  ∧ ∀ server cl,
      sent (trace (snd (run (invoke server cl) (__init__ dh (Some (b +:+ "/")) k))))
      = sent (trace (snd (run (invoke server cl) (__init__ dh (Some b) k))))
      ∧ ∃ req path,
          sent (trace (snd (run (invoke server cl) (__init__ dh (Some b) k)))) = [req]
          ∧ req_url req = rstrip "/" b +:+ path.
Proof.
  assert (Hinit : __init__ dh (Some (b +:+ "/")) k = __init__ dh (Some b) k).
  { unfold __init__. simpl. rewrite rstrip_app_slash. reflexivity. }
  assert (Hbase : base_url (__init__ dh (Some b) k) = rstrip "/" b).
  { unfold __init__. simpl. destruct k as [[|a k]|]; reflexivity. }
  split_and!.
  - rewrite Hbase. apply rstrip_slashes.
  - by rewrite Hinit.
  - intros server cl. rewrite Hinit. split; [reflexivity|].
    exists (request_of cl (__init__ dh (Some b) k)).
    destruct cl; eexists; (split; [apply invoke_sent|]);
      unfold request_of, GET, POST, req_url; rewrite Hbase; reflexivity.
Qed.

(** C8: no operation changes the client: after any call, from any state,
    successful or failed, the client object (base URL, API key and the
    session's headers) is the one it was before, so it stays what
    construction made it over any sequence of calls. *)
Theorem operations_preserve_client server (cl : call) (st : state) :
  self (snd (invoke server cl st)) = self st
  ∧ ∀ cls : list call,
      self (foldl (λ st cl, snd (invoke server cl st)) st cls) = self st.
Proof.
  assert (Hone : ∀ cl st, self (snd (invoke server cl st)) = self st).
  { clear. intros cl st.
    destruct cl; unfold invoke, health, get_swarm_status, run_optimization,
      get_resources, get_roi, chat, get_recommendations, Session_get, Session_post,
      Session_request, raise_for_status, Response_json, get_self, log, lift, raise,
      mbind, mret, fmap, M_bind, M_ret, M_fmap; simpl;
      repeat (match goal with
              | |- context [match server ?r with _ => _ end] => destruct (server r); simpl
              | |- context [bool_decide ?P] => destruct (bool_decide P); simpl
              | |- context [decoded ?r] => destruct (decoded r); simpl
              | |- context [match ?r with Ok _ => _ | Err _ => _ end] => destruct r; simpl
              end); reflexivity. }
  split; [apply Hone|].
  intros cls. revert st. induction cls as [|cl' cls IH]; intros st; [reflexivity|].
  simpl. rewrite IH. apply Hone.
Qed.

(** * Further properties of the client *)

(** ** The four ways an exchange can go *)

Section Outcomes.

Variable server : Request → string + Response.

Lemma outcome_cases {A} req (k : pyval → result A) c :
  (∃ msg, server req = inl msg
     ∧ outcome server req k c = (Err (TransportError msg), mkState c [EvSend req]))
  ∨ (∃ r, server req = inr r ∧ 400 ≤ status_code r < 600
     ∧ outcome server req k c =
         (Err (HTTPError r), mkState c [EvSend req; EvRaiseForStatus r]))
  ∨ (∃ r, server req = inr r ∧ ¬ (400 ≤ status_code r < 600) ∧ decoded r = None
     ∧ outcome server req k c =
         (Err (JSONDecodeError (text r)),
          mkState c [EvSend req; EvRaiseForStatus r; EvJson r]))
  ∨ (∃ r data, server req = inr r ∧ ¬ (400 ≤ status_code r < 600)
     ∧ decoded r = Some data
     ∧ outcome server req k c =
         (k data, mkState c [EvSend req; EvRaiseForStatus r; EvJson r])).
Proof.
  unfold outcome. destruct (server req) as [msg|r];
    [left; exists msg; split; reflexivity|].
  right. destruct (decide (400 ≤ status_code r < 600)) as [Hc|Hc].
  - left. rewrite bool_decide_true by done.
    exists r. split_and!; (reflexivity || assumption || lia).
  - right. rewrite bool_decide_false by done.
    destruct (decoded r) as [data|] eqn:Hd;
      [right; exists r, data | left; exists r]; split_and!; (reflexivity || assumption || lia).
Qed.

(** A call from any state: the result is that of the call made on its own,
    and what it did is appended to the trace. *)
Lemma invoke_from_state cl st :
  invoke server cl st =
  (fst (run (invoke server cl) (self st)),
   mkState (self st) (trace st ++ trace (snd (run (invoke server cl) (self st))))).
Proof.
  destruct st as [c tr].
  destruct cl; unfold run, invoke, health, get_swarm_status, run_optimization,
    get_resources, get_roi, chat, get_recommendations, Session_get, Session_post,
    Session_request, raise_for_status, Response_json, get_self, log, lift, raise,
    mbind, mret, fmap, M_bind, M_ret, M_fmap; simpl;
    repeat (match goal with
            | |- context [match server ?r with _ => _ end] => destruct (server r); simpl
            | |- context [bool_decide ?P] => destruct (bool_decide P); simpl
            | |- context [decoded ?r] => destruct (decoded r); simpl
            | |- context [match ?r with Ok _ => _ | Err _ => _ end] => destruct r; simpl
            end); rewrite <- ?app_assoc; reflexivity.
Qed.

End Outcomes.

(** X1: every method calls the session exactly once, whatever that
    call returns or raises (it never calls again), with the HTTP method
    and the URL of its endpoint and the session's headers; a [get] is given
    no JSON body and a [post] no query parameter. *)
Theorem one_session_call_per_method server (cl : call) (c : TalosClient) :
  ∃ req, sent (trace (snd (run (invoke server cl) c))) = [req]
    ∧ req_headers req = headers (session c)
    ∧ (req_method req, req_url req) =
        match cl with
        | call_health => ("GET", base_url c +:+ "/health")
        | call_get_swarm_status => ("GET", base_url c +:+ "/api/swarm/live")
        | call_run_optimization _ _ _ => ("POST", base_url c +:+ "/api/optimize")
        | call_get_resources _ _ => ("GET", base_url c +:+ "/api/resources")
        | call_get_roi => ("GET", base_url c +:+ "/api/roi")
        | call_chat _ => ("POST", base_url c +:+ "/api/ai/chat")
        | call_get_recommendations => ("GET", base_url c +:+ "/api/recommendations")
        end%string
    ∧ match cl with
      | call_run_optimization _ _ _ | call_chat _ =>
          req_params req = ∅ ∧ is_Some (req_json req)
      | call_get_resources _ _ => req_json req = None
      | _ => req_params req = ∅ ∧ req_json req = None
      end.
Proof.
  exists (request_of cl c). rewrite invoke_outcome, outcome_sent.
  destruct cl; simpl; split_and!; eauto.
Qed.

(** X2: when the request gets no response, the call fails with the
    transport error as it is, and neither the status check nor the JSON
    decoding takes place. *)
Theorem transport_failure_propagates server (cl : call) (c : TalosClient)
    (req : Request) (msg : string) :
  sent (trace (snd (run (invoke server cl) c))) = [req] →
  server req = inl msg →
  run (invoke server cl) c = (Err (TransportError msg), mkState c [EvSend req]).
Proof.
  rewrite invoke_outcome, outcome_sent. intros [= <-] Hmsg.
  unfold outcome. by rewrite Hmsg.
Qed.

Lemma transport_failure_propagates_refused :
  fst (run (invoke unreachable call_get_roi)
         (__init__ session_defaults (Some "http://x"%string) None))
    = Err (TransportError "Connection refused")
  ∧ length (trace (snd (run (invoke unreachable call_get_roi)
         (__init__ session_defaults (Some "http://x"%string) None)))) = 1%nat.
Proof.
  rewrite (transport_failure_propagates unreachable call_get_roi
             (__init__ session_defaults (Some "http://x"%string) None)
             (GET (__init__ session_defaults (Some "http://x"%string) None) "/api/roi" ∅)
             "Connection refused").
  - split; reflexivity.
  - vm_compute. reflexivity.
  - reflexivity.
Defined.

(** X3: a response that is not a 4xx or 5xx and whose body is not JSON
    makes every method fail with the [JSONDecodeError] of that body. *)
Theorem malformed_body_is_decode_error server (cl : call) (c : TalosClient)
    (response : Response) :
  answered server (invoke server cl) c response →
  ¬ (400 ≤ status_code response < 600) →
  decoded response = None →
  fst (run (invoke server cl) c) = Err (JSONDecodeError (text response)).
Proof.
  intros Hans Hcode Hbody.
  apply (outcome_answered _ _ _ _ _ _ (invoke_outcome server cl c)) in Hans.
  rewrite invoke_outcome. unfold outcome.
  rewrite Hans, bool_decide_false, Hbody by done. reflexivity.
Qed.

Lemma malformed_body_is_decode_error_html :
  fst (run (invoke (always html_response) call_get_recommendations)
         (__init__ session_defaults (Some "http://x"%string) None))
  = Err (JSONDecodeError "<html></html>").
Proof.
  apply (malformed_body_is_decode_error (always html_response) call_get_recommendations
           (__init__ session_defaults (Some "http://x"%string) None) html_response).
  - eexists. split; [vm_compute; reflexivity | reflexivity].
  - simpl. lia.
  - reflexivity.
Defined.

(** X4: what a call did is one of three things, in this order: it sent
    its request; it then checked the status of the response; it then
    decoded the body.  The body of a response is never decoded before its
    status was checked, and only when the status is not a 4xx or 5xx. *)
Theorem status_checked_before_decoding server (cl : call) (c : TalosClient) :
  ∃ req, let tr := trace (snd (run (invoke server cl) c)) in
    tr = [EvSend req]
    ∨ (∃ r, server req = inr r ∧ 400 ≤ status_code r < 600
         ∧ tr = [EvSend req; EvRaiseForStatus r])
    ∨ (∃ r, server req = inr r ∧ ¬ (400 ≤ status_code r < 600)
         ∧ tr = [EvSend req; EvRaiseForStatus r; EvJson r]).
Proof.
  exists (request_of cl c). simpl. rewrite invoke_outcome.
  destruct (outcome_cases server (request_of cl c) (decoder_of cl) c)
    as [(msg & _ & ->) | [(r & Hr & Hc & ->) | [(r & Hr & Hc & _ & ->)
       | (r & data & Hr & Hc & _ & ->)]]]; simpl; eauto 10.
Qed.

(** X6: a call that returns had its request answered by a response
    whose status is not a 4xx or 5xx and whose body is JSON, and what it
    returns is made from that body alone. *)
Theorem success_needs_json_body server (cl : call) (c : TalosClient) (v : retval) :
  fst (run (invoke server cl) c) = Ok v →
  ∃ response data,
    answered server (invoke server cl) c response
    ∧ ¬ (400 ≤ status_code response < 600)
    ∧ decoded response = Some data
    ∧ decoder_of cl data = Ok v.
Proof.
  intros Hv.
  assert (Hsent := outcome_sent server (request_of cl c) (decoder_of cl) c).
  rewrite <- invoke_outcome in Hsent. rewrite invoke_outcome in Hv.
  destruct (outcome_cases server (request_of cl c) (decoder_of cl) c)
    as [(msg & Hr & Ho) | [(r & Hr & Hc & Ho) | [(r & Hr & Hc & Hd & Ho)
       | (r & data & Hr & Hc & Hd & Ho)]]]; rewrite Ho in Hv; simpl in Hv;
    try discriminate.
  exists r, data. split_and!; [| done | done | done].
  exists (request_of cl c). split; done.
Qed.

Lemma success_needs_json_body_roi :
  ∃ response data,
    answered (always roi_response) (invoke (always roi_response) call_get_roi)
      (__init__ session_defaults (Some "http://x"%string) None) response
    ∧ ¬ (400 ≤ status_code response < 600)
    ∧ decoded response = Some data
    ∧ decoder_of call_get_roi data =
        Ok (ret_roi (mkROI (PyFloat 3.5%float) (PyFloat 1000.0%float)
                       (PyFloat 200.0%float) (PyFloat 800.0%float))).
Proof.
  apply (success_needs_json_body (always roi_response) call_get_roi
           (__init__ session_defaults (Some "http://x"%string) None)).
  vm_compute. reflexivity.
Defined.

(** ** What a successful decoding says about the body *)

Section Exactness.

Ltac init_exact kw :=
  unfold check_keywords;
  let Hdom := fresh "Hdom" in
  destruct (bool_decide _) eqn:Hdom; simpl; [|discriminate];
  apply bool_decide_eq_true in Hdom;
  unfold required;
  repeat match goal with
         | |- context [match kw !! ?f with _ => _ end] =>
             destruct (kw !! f) eqn:?; simpl; [|discriminate]
         end;
  intros [= <-]; simpl; f_equal; apply map_eq; intros i;
  repeat (rewrite lookup_insert; case_decide; [subst i; done|]);
  rewrite lookup_empty; apply not_elem_of_dom;
  intros Hi%Hdom; set_solver.

Lemma TierStatus_init_exact kw t : TierStatus_init kw = Ok t → PyDict kw = TierStatus_json t.
Proof. unfold TierStatus_init, TierStatus_json. init_exact kw. Qed.

Lemma Resource_init_exact kw r : Resource_init kw = Ok r → PyDict kw = Resource_json r.
Proof. unfold Resource_init, Resource_json. init_exact kw. Qed.

Lemma ROI_init_exact kw r : ROI_init kw = Ok r → PyDict kw = ROI_json r.
Proof. unfold ROI_init, ROI_json. init_exact kw. Qed.

Lemma construct_exact {A} (init : gmap string pyval → result A) (json : A → pyval)
    (x : pyval) (a : A) :
  (∀ kw a, init kw = Ok a → PyDict kw = json a) →
  kwargs x ≫= init = Ok a → x = json a.
Proof. intros Hinit. destruct x; simpl; try discriminate. apply Hinit. Qed.

Lemma mapM_exact {A} (f : pyval → result A) (g : A → pyval) l (rs : list A) :
  (∀ x a, f x = Ok a → x = g a) → mapM f l = Ok rs → l = g <$> rs.
Proof.
  intros Hf. revert rs. induction l as [|x l IH]; intros rs.
  - intros [= <-]. reflexivity.
  - rewrite mapM_cons. destruct (f x) as [a|] eqn:Hx; simpl; [|discriminate].
    destruct (mapM f l) as [k|] eqn:Hl; simpl; [|discriminate].
    intros [= <-]. rewrite fmap_cons, <- (IH k eq_refl), <- (Hf x a Hx). reflexivity.
Qed.

End Exactness.

Section Success.

Variable server : Request → string + Response.

Lemma outcome_Ok {A} (m : M A) req (k : pyval → result A) c (a : A) :
  run m c = outcome server req k c →
  fst (run m c) = Ok a →
  ∃ response data, answered server m c response
    ∧ ¬ (400 ≤ status_code response < 600)
    ∧ decoded response = Some data ∧ k data = Ok a.
Proof.
  intros Hrun Ha.
  assert (Hsent := outcome_sent server req k c). rewrite <- Hrun in Hsent.
  rewrite Hrun in Ha.
  destruct (outcome_cases server req k c)
    as [(msg & Hr & Ho) | [(r & Hr & Hc & Ho) | [(r & Hr & Hc & Hd & Ho)
       | (r & data & Hr & Hc & Hd & Ho)]]]; rewrite Ho in Ha; simpl in Ha;
    try discriminate.
  exists r, data. split_and!; [| done | done | done].
  exists req. split; done.
Qed.

Lemma outcome_body {A} (m : M A) req (k : pyval → result A) c response data :
  run m c = outcome server req k c →
  answered server m c response →
  ¬ (400 ≤ status_code response < 600) →
  decoded response = Some data →
  fst (run m c) = k data.
Proof.
  intros Hrun Hans Hcode Hbody.
  apply (outcome_answered _ _ _ _ _ _ Hrun) in Hans.
  by rewrite Hrun, (outcome_decoded _ _ _ _ _ _ Hans Hcode Hbody).
Qed.

End Success.

Lemma iterate_records {A} (json : A → pyval) (data : pyval) (rs : list A) :
  (∀ a, ∃ d, json a = PyDict d) →
  iterate data = Ok (json <$> rs) →
  data = PyList (json <$> rs)
  ∨ (rs = [] ∧ (data = PyDict ∅ ∨ data = PyStr EmptyString)).
Proof.
  intros Hjson.
  assert (Hstr : ∀ (s : string) (l : list string),
            PyStr s :: (PyStr <$> l) = json <$> rs → False).
  { intros s l. destruct rs as [|r rs]; [discriminate|].
    rewrite fmap_cons. destruct (Hjson r) as [d ->]. discriminate. }
  destruct data as [| | | |s|l|d]; simpl; try discriminate.
  - destruct s as [|a s]; simpl.
    + destruct rs; [eauto | discriminate].
    + intros [= H]. destruct rs as [|r rs]; [discriminate|].
      rewrite fmap_cons in H. destruct (Hjson r) as [d Hd]. rewrite Hd in H.
      discriminate.
  - intros [= ->]. by left.
  - intros [= Hkeys]. destruct (map_to_list d) as [|kv kvs] eqn:Hd.
    + apply map_to_list_empty_iff in Hd as ->.
      destruct rs; [eauto | discriminate].
    + exfalso. apply (Hstr kv.1 kvs.*1). exact Hkeys.
Qed.

(** X7: when [get_roi] returns an [ROI], the body of the response was
    the JSON object with exactly the four fields of that [ROI] and the
    values returned. *)
Theorem get_roi_success_exact server (c : TalosClient) (r : ROI) :
  fst (run (get_roi server) c) = Ok r →
  ∃ response, answered server (get_roi server) c response
    ∧ ¬ (400 ≤ status_code response < 600)
    ∧ decoded response = Some (ROI_json r).
Proof.
  intros Hr.
  destruct (outcome_Ok server _ _ _ c r (get_roi_outcome server c) Hr)
    as (response & data & Hans & Hcode & Hbody & Hk).
  exists response. split_and!; [done | done |].
  by rewrite Hbody, (construct_exact ROI_init ROI_json data r ROI_init_exact Hk).
Qed.

Lemma get_roi_success_exact_scenario :
  ∃ response,
    answered (always roi_response) (get_roi (always roi_response))
      (__init__ session_defaults (Some "http://x"%string) None) response
    ∧ ¬ (400 ≤ status_code response < 600)
    ∧ decoded response =
        Some (ROI_json (mkROI (PyFloat 3.5%float) (PyFloat 1000.0%float)
                          (PyFloat 200.0%float) (PyFloat 800.0%float))).
Proof.
  apply (get_roi_success_exact (always roi_response)
           (__init__ session_defaults (Some "http://x"%string) None)).
  vm_compute. reflexivity.
Defined.

(** X8: when [get_resources] returns a list of resources, the body was
    the JSON list of exactly these resources, in the same order, each with
    exactly the seven fields; the only other bodies that give a result are
    the empty object and the empty string, and they give the empty list. *)
Theorem get_resources_success_exact server (c : TalosClient) (p t : option string)
    (rs : list Resource) :
  fst (run (get_resources server p t) c) = Ok rs →
  ∃ response data, answered server (get_resources server p t) c response
    ∧ ¬ (400 ≤ status_code response < 600)
    ∧ decoded response = Some data
    ∧ (data = PyList (Resource_json <$> rs)
       ∨ (rs = [] ∧ (data = PyDict ∅ ∨ data = PyStr EmptyString))).
Proof.
  intros Hr.
  destruct (outcome_Ok server _ _ _ c rs (get_resources_outcome server p t c) Hr)
    as (response & data & Hans & Hcode & Hbody & Hk).
  exists response, data. split_and!; [done | done | done |].
  destruct (iterate data) as [l|] eqn:Hit; simpl in Hk; [|discriminate].
  apply (mapM_exact _ Resource_json) in Hk.
  2:{ intros x a. apply (construct_exact Resource_init Resource_json), Resource_init_exact. }
  subst l. apply (iterate_records Resource_json); [|done].
  intros a. eexists. reflexivity.
Qed.

Lemma get_resources_success_exact_one :
  ∃ response data,
    answered (always one_resource_response)
      (get_resources (always one_resource_response) (Some "aws"%string) None)
      (__init__ session_defaults (Some "http://x"%string) None) response
    ∧ ¬ (400 ≤ status_code response < 600)
    ∧ decoded response = Some data
    ∧ (data = PyList (Resource_json <$> [vm_resource])
       ∨ ([vm_resource] = [] ∧ (data = PyDict ∅ ∨ data = PyStr EmptyString))).
Proof.
  apply (get_resources_success_exact (always one_resource_response)
           (__init__ session_defaults (Some "http://x"%string) None)).
  vm_compute. reflexivity.
Defined.

(** X9: when [get_swarm_status] returns a [SwarmStatus], the body was a
    JSON object holding the returned values under [active_tier],
    [current_action] and [queue_depth], and under [tier_status] something
    that iterates to exactly the returned tiers, each an object with
    exactly the eight fields of [TierStatus]. *)
Theorem get_swarm_status_success_exact server (c : TalosClient) (s : SwarmStatus) :
  fst (run (get_swarm_status server) c) = Ok s →
  ∃ response d ts, answered server (get_swarm_status server) c response
    ∧ ¬ (400 ≤ status_code response < 600)
    ∧ decoded response = Some (PyDict d)
    ∧ d !! "active_tier" = Some (active_tier s)
    ∧ d !! "tier_status" = Some ts
    ∧ iterate ts = Ok (TierStatus_json <$> tier_status s)
    ∧ d !! "current_action" = Some (current_action s)
    ∧ d !! "queue_depth" = Some (queue_depth s).
Proof.
  intros Hs.
  destruct (outcome_Ok server _ _ _ c s (get_swarm_status_outcome server c) Hs)
    as (response & data & Hans & Hcode & Hbody & Hk).
  unfold decode_swarm, getitem in Hk.
  destruct data as [| | | | | |d]; try discriminate.
  destruct (d !! "active_tier") as [a|] eqn:Ha; simpl in Hk; [|discriminate].
  destruct (d !! "tier_status") as [ts|] eqn:Hts; simpl in Hk; [|discriminate].
  destruct (iterate ts) as [l|] eqn:Hit; simpl in Hk; [|discriminate].
  destruct (mapM _ l) as [tiers|] eqn:Hl; simpl in Hk; [|discriminate].
  destruct (d !! "current_action") as [ca|] eqn:Hca; simpl in Hk; [|discriminate].
  destruct (d !! "queue_depth") as [q|] eqn:Hq; simpl in Hk; [|discriminate].
  injection Hk as <-. simpl.
  apply (mapM_exact _ TierStatus_json) in Hl.
  2:{ intros x a'. apply (construct_exact TierStatus_init TierStatus_json),
        TierStatus_init_exact. }
  subst l. exists response, d, ts. split_and!; done.
Qed.

Lemma get_swarm_status_success_exact_idle :
  ∃ response d ts,
    answered (always swarm_response) (get_swarm_status (always swarm_response))
      (__init__ session_defaults (Some "http://x"%string) None) response
    ∧ ¬ (400 ≤ status_code response < 600)
    ∧ decoded response = Some (PyDict d)
    ∧ d !! "active_tier" = Some (active_tier idle_swarm)
    ∧ d !! "tier_status" = Some ts
    ∧ iterate ts = Ok (TierStatus_json <$> tier_status idle_swarm)
    ∧ d !! "current_action" = Some (current_action idle_swarm)
    ∧ d !! "queue_depth" = Some (queue_depth idle_swarm).
Proof.
  apply (get_swarm_status_success_exact (always swarm_response)
           (__init__ session_defaults (Some "http://x"%string) None)).
  vm_compute. reflexivity.
Defined.

(** ** Bodies that are passed on or picked from *)





(** ** Edges of the typed decodings *)

Lemma decode_swarm_unknown_key d k v :
  k ∉ SwarmStatus_fields →
  decode_swarm (PyDict (<[k := v]> d)) = decode_swarm (PyDict d).
Proof.
  intros Hk. unfold decode_swarm, getitem.
  rewrite !lookup_insert_ne; [reflexivity | ..];
    intros ->; apply Hk; unfold SwarmStatus_fields; set_solver.
Qed.

(** X12: on a response that is not a 4xx or 5xx, a key of the swarm
    status object that [SwarmStatus] does not have is ignored: with or
    without it the call gives the same result.  (Inside a tier entry such
    a key is refused.) *)
Theorem swarm_ignores_unknown_top_level_key (c : TalosClient) (code : Z)
    (body body' : string) (d : gmap string pyval) (k : string) (v : pyval) :
  ¬ (400 ≤ code < 600) →
  k ∉ SwarmStatus_fields →
  fst (run (get_swarm_status
              (always (mkResponse code body' (Some (PyDict (<[k := v]> d)))))) c)
  = fst (run (get_swarm_status (always (mkResponse code body (Some (PyDict d))))) c).
Proof.
  intros Hcode Hk. rewrite !get_swarm_status_outcome. unfold outcome, always. simpl.
  rewrite bool_decide_false by done. simpl.
  by rewrite decode_swarm_unknown_key.
Qed.

Lemma swarm_ignores_unknown_top_level_key_uptime :
  fst (run (get_swarm_status (always swarm_response))
         (__init__ session_defaults (Some "http://x"%string) None))
  = Ok idle_swarm.
Proof.
  etransitivity.
  - refine (swarm_ignores_unknown_top_level_key
              (__init__ session_defaults (Some "http://x"%string) None) 200
              EmptyString (text swarm_response)
              (match SwarmStatus_json idle_swarm with PyDict d => d | _ => ∅ end)
              "uptime" (PyInt 7) _ _).
    + lia.
    + apply (bool_decide_unpack _). vm_compute. exact I.
  - vm_compute. reflexivity.
Defined.

(** X13: a body of [get_resources] that is not a list: the empty object
    and the empty string are taken for no resources at all; a non-empty
    object or string fails on its first key or character, which is not a
    mapping; [null], a boolean or a number fails as not iterable. *)
Theorem get_resources_body_not_a_list server (c : TalosClient) (p t : option string)
    (response : Response) (data : pyval) :
  answered server (get_resources server p t) c response →
  ¬ (400 ≤ status_code response < 600) →
  decoded response = Some data →
  match data with
  | PyList _ => True
  | PyDict d =>
      (d = ∅ → fst (run (get_resources server p t) c) = Ok [])
      ∧ (d ≠ ∅ → fst (run (get_resources server p t) c) = Err (TypeError not_a_mapping))
  | PyStr s =>
      (s = EmptyString → fst (run (get_resources server p t) c) = Ok [])
      ∧ (s ≠ EmptyString →
           fst (run (get_resources server p t) c) = Err (TypeError not_a_mapping))
  | _ => fst (run (get_resources server p t) c) = Err (TypeError not_iterable)
  end.
Proof.
  intros Hans Hcode Hbody.
  rewrite (outcome_body server _ _ _ c response data
             (get_resources_outcome server p t c) Hans Hcode Hbody).
  destruct data as [| | | |s|l|d]; simpl; try reflexivity; try exact I.
  - split; [by intros -> | destruct s; [done | reflexivity]].
  - split; [intros ->; by rewrite map_to_list_empty |].
    intros Hd. destruct (map_to_list d) as [|kv kvs] eqn:Hl;
      [by apply map_to_list_empty_iff in Hl | reflexivity].
Qed.

Lemma get_resources_body_not_a_list_empty_object :
  fst (run (get_resources (always empty_object_response) None None)
         (__init__ session_defaults (Some "http://x"%string) None))
  = Ok [].
Proof.
  refine (proj1 (get_resources_body_not_a_list (always empty_object_response)
            (__init__ session_defaults (Some "http://x"%string) None) None None
            empty_object_response (PyDict ∅) _ _ eq_refl) eq_refl).
  - eexists. split; [vm_compute; reflexivity | reflexivity].
  - simpl. lia.
Defined.

Lemma mapM_first_failure {A} (f : pyval → result A) (g : A → pyval) (rs : list A)
    (x : pyval) (rest : list pyval) (e : exn) :
  (∀ a, f (g a) = Ok a) → f x = Err e →
  mapM f ((g <$> rs) ++ x :: rest) = Err e.
Proof.
  intros Hfg Hx. induction rs as [|r rs IH].
  - change (mapM f (x :: rest) = Err e). rewrite mapM_cons, Hx. reflexivity.
  - change (mapM f (g r :: ((g <$> rs) ++ x :: rest)) = Err e).
    rewrite mapM_cons, Hfg, IH. reflexivity.
Qed.

(** X14: [get_resources] fails with the error of the first entry of the
    list that cannot be made into a [Resource]; the entries after it are
    not looked at. *)
Theorem get_resources_first_bad_entry server (c : TalosClient) (p t : option string)
    (response : Response) (rs : list Resource) (x : pyval) (rest : list pyval)
    (e : exn) :
  answered server (get_resources server p t) c response →
  ¬ (400 ≤ status_code response < 600) →
  decoded response = Some (PyList ((Resource_json <$> rs) ++ x :: rest)) →
  kwargs x ≫= Resource_init = Err e →
  fst (run (get_resources server p t) c) = Err e.
Proof.
  intros Hans Hcode Hbody Hx.
  rewrite (outcome_body server _ _ _ c response _
             (get_resources_outcome server p t c) Hans Hcode Hbody).
  simpl. by apply (mapM_first_failure _ Resource_json), Hx; apply Resource_init_json.
Qed.

Lemma get_resources_first_bad_entry_second :
  fst (run (get_resources (always resources_response) None None)
         (__init__ session_defaults (Some "http://x"%string) None))
  = Err (TypeError (missing_argument "type")).
Proof.
  refine (get_resources_first_bad_entry (always resources_response)
            (__init__ session_defaults (Some "http://x"%string) None) None None
            resources_response [vm_resource] (PyDict (<["id" := PyStr "i-2"]> ∅))
            [PyInt 0] _ _ _ eq_refl _).
  - eexists. split; [vm_compute; reflexivity | reflexivity].
  - simpl. lia.
  - vm_compute. reflexivity.
Defined.

(** X15: when the tier entries can be decoded, [get_swarm_status] reports
    a body that lacks top-level keys with the [KeyError] of the first one
    missing, in the order [active_tier], [tier_status], [current_action],
    [queue_depth]. *)
Theorem get_swarm_status_first_missing_key server (c : TalosClient)
    (response : Response) (d : gmap string pyval) (f : string) :
  answered server (get_swarm_status server) c response →
  ¬ (400 ≤ status_code response < 600) →
  decoded response = Some (PyDict d) →
  (∀ ts, d !! "tier_status" = Some ts →
     ∃ tiers, iterate ts ≫= mapM (λ t, kwargs t ≫= TierStatus_init) = Ok tiers) →
  first_missing SwarmStatus_fields d = Some f →
  fst (run (get_swarm_status server) c) = Err (KeyError f).
Proof.
  intros Hans Hcode Hbody Htiers Hf.
  rewrite (outcome_body server _ _ _ c response _
             (get_swarm_status_outcome server c) Hans Hcode Hbody).
  unfold first_missing, SwarmStatus_fields in Hf. unfold decode_swarm, getitem.
  simpl in Hf.
  destruct (d !! "active_tier") as [a|]; simpl in *; [|by injection Hf as <-].
  destruct (d !! "tier_status") as [ts|]; simpl in *; [|by injection Hf as <-].
  destruct (Htiers ts eq_refl) as [tiers Hts].
  destruct (iterate ts) as [l|]; simpl in *; [|discriminate]. rewrite Hts. simpl.
  destruct (d !! "current_action") as [ca|]; simpl in *; [|by injection Hf as <-].
  destruct (d !! "queue_depth") as [q|]; simpl in *; [discriminate|by injection Hf as <-].
Qed.

Lemma get_swarm_status_first_missing_key_action :
  fst (run (get_swarm_status (always partial_swarm_response))
         (__init__ session_defaults (Some "http://x"%string) None))
  = Err (KeyError "current_action").
Proof.
  refine (get_swarm_status_first_missing_key (always partial_swarm_response)
            (__init__ session_defaults (Some "http://x"%string) None)
            partial_swarm_response _ "current_action" _ _ eq_refl _ _).
  - eexists. split; [vm_compute; reflexivity | reflexivity].
  - simpl. lia.
  - intros ts [= <-]. exists [idle_tier]. vm_compute. reflexivity.
  - vm_compute. reflexivity.
Defined.

(** ** Calls in sequence *)

Lemma sent_app tr tr' : sent (tr ++ tr') = sent tr ++ sent tr'.
Proof. apply omap_app. Qed.

Lemma invoke_self server cl st : self (snd (invoke server cl st)) = self st.
Proof. by rewrite invoke_from_state. Qed.

(** X16: what a method passes to the session depends on the client and
    on the arguments of the method only, not on what earlier calls got
    back nor on what the remote end answers: in a sequence of calls, each
    against its own behaviour of the remote end, the calls made on the
    session are those the methods make on their own, against any remote
    end, one after the other. *)
Theorem session_calls_ignore_answers
    (steps : list ((Request → string + Response) * call))
    (other : call → Request → string + Response) (st : state) :
  sent (trace (foldl (λ st step, snd (invoke step.1 step.2 st)) st steps))
  = sent (trace st)
    ++ (steps ≫= λ step,
          sent (trace (snd (run (invoke (other step.2) step.2) (self st))))).
Proof.
  revert st. induction steps as [|[srv cl] steps IH]; intros st.
  - simpl. by rewrite app_nil_r.
  - simpl. rewrite IH, invoke_self, invoke_from_state. simpl.
    rewrite sent_app, <- app_assoc, !invoke_sent. reflexivity.
Qed.

(** ** Construction *)

Lemma rstrip_unchanged s : last_char s ≠ Some "/"%char → rstrip "/" s = s.
Proof.
  induction s as [|a s IH]; [done|]. simpl.
  destruct s as [|b s].
  - simpl. intros Ha. destruct (Ascii.eqb_spec a "/"); congruence.
  - intros Hlast. rewrite (IH Hlast). reflexivity.
Qed.

Lemma rstrip_only_slashes n : rstrip "/" (slashes n) = EmptyString.
Proof. induction n as [|n IH]; [done|]. simpl. rewrite IH. reflexivity. Qed.

Lemma init_base_url dh b k : base_url (__init__ dh b k) =
  rstrip "/" (default "http://localhost:8080"%string b).
Proof. unfold __init__. destruct k as [[|a k]|]; reflexivity. Qed.

(** X17: the stored base URL: the default is [http://localhost:8080]; a
    URL is stored unchanged exactly when it does not end with a slash;
    building a client from a stored base URL gives that base URL again;
    and a URL made of slashes only is stored as the empty string. *)
Theorem stored_base_url dh (b : string) (k k' : option string) :
  base_url (__init__ dh None k) = "http://localhost:8080"%string
  ∧ (base_url (__init__ dh (Some b) k) = b ↔ last_char b ≠ Some "/"%char)
  ∧ base_url (__init__ dh (Some (base_url (__init__ dh (Some b) k))) k')
    = base_url (__init__ dh (Some b) k)
  ∧ ∀ n, base_url (__init__ dh (Some (slashes n)) k) = EmptyString.
Proof.
  rewrite !init_base_url. simpl.
  destruct (rstrip_slashes b) as (n & Hb & Hlast).
  split_and!.
  - reflexivity.
  - split; [intros Heq; by rewrite Heq in Hlast | apply rstrip_unchanged].
  - by apply rstrip_unchanged.
  - intros m. rewrite init_base_url. apply rstrip_only_slashes.
Qed.
